(** * statsd: process bootstrap and event-loop host

    A shallow embedding of [main] in [cmds/statsd/src/main.cpp].

    [main] is a straight-line sequence of calls into collaborators that live
    outside the file (the looper, the binder runtime, the service manager,
    [StatsService], [StatsSocketListener], the log macros), followed by an
    endless pump.  The embedding is a small-step machine whose control points
    are the statements of [main], named after their source lines.  Each step
    performs one statement: it appends the call it makes to the trace and
    moves to the next control point, reading the collaborator's answer from an
    environment where the source branches on it. *)

From Stdlib Require Import ZArith List String Bool Arith Lia.
Import ListNotations.

Local Open Scope string_scope.
Local Open Scope Z_scope.
Local Open Scope list_scope.

(** ** Observable calls *)

Module Statsd.

(** Priorities of the three log macros used by [main]:
    [ALOGI], [ALOGW] and [ALOGE]. *)
Inductive LogPriority : Type :=
| LOG_INFO
| LOG_WARN
| LOG_ERROR.

(** The calls [main] makes, with the literal arguments it passes. *)
Inductive Call : Type :=
| Looper_prepare (opts : Z)                     (* line 50 *)
| ProcessState_self                             (* line 53 *)
| setThreadPoolMaxThreadCount (maxThreads : Z)  (* line 54, on ps *)
| startThreadPool                               (* line 55, on ps *)
| giveThreadPoolName                            (* line 56, on ps *)
| disableBackgroundScheduling (disable : bool)  (* line 57, on IPCThreadState::self() *)
| new_StatsService                              (* line 60, given the looper *)
| addService (name : string)                    (* line 61, on defaultServiceManager() *)
| ALOG (prio : LogPriority) (msg : string)      (* lines 62, 71, 82 *)
| sayHiToStatsCompanion                         (* line 65, on service *)
| Startup                                       (* line 67, on service *)
| new_StatsSocketListener                       (* line 69, given the service *)
| startListener (backlog : Z)                   (* line 73, on socketListener *)
| pollAll (timeoutMillis : Z).                  (* line 80, on looper *)

(** ** How the process ends *)

(** Modelled from the spec: [Looper::prepare] is not part of this source
    tree, and [main] does not test what it returns.  The spec says that
    preparing the event loop must not fail and that, if it does, the process
    terminates with a non-zero status.  [Died st] is that termination, inside
    the call, with the non-zero status [Zpos st]. *)
Inductive Halt : Type :=
| Returned (ret : Z)     (* [return ret;] from [main] *)
| Exited (code : Z)      (* [exit(code);] *)
| Died (st : positive).  (* terminated inside [Looper::prepare] *)

(** The integer the program hands over when it ends. *)
Definition status (h : Halt) : Z :=
  match h with
  | Returned ret => ret
  | Exited code => code
  | Died st => Zpos st
  end.

(** What the parent of the process observes.  A value returned from [main] or
    passed to [exit] is cut to its low eight bits ([status & 0377]) at the
    process boundary. *)
Definition observed_status (h : Halt) : Z :=
  match h with
  | Returned ret => Z.land ret 255
  | Exited code => Z.land code 255
  | Died st => Zpos st
  end.

(** ** The collaborators' answers *)

(** Modelled from the spec: the two outcomes of [Looper::prepare] (see
    [Halt]). *)
Inductive PrepareOutcome : Type :=
| Prepared
| PrepareDies (st : positive).

(** The answers [main] depends on.  [addService] returns a [status_t] and
    [startListener] an [int]; [main] only compares them with zero.  The
    [k]-th call of [pollAll] either returns an [int], which [main] drops, or
    never returns ([None]). *)
Record Collaborators : Type := mkCollaborators {
  prepare_outcome : PrepareOutcome;
  addService_status : Z;
  startListener_status : Z;
  pollAll_result : nat -> option Z
}.

(** ** Control points and machine state *)

(** One control point per statement of [main], named by source line.
    [InPoll] is the inside of a [pollAll] call that never returns. *)
Inductive PC : Type :=
| L50 | L53 | L54 | L55 | L56 | L57
| L60 | L61 | L62 | L63
| L65 | L67 | L69 | L71 | L73 | L74
| L79 | L80
| L82 | L84
| InPoll
| Halted (h : Halt).

Record State : Type := mkState {
  pc : PC;
  trace : list Call;   (* calls made so far, oldest first *)
  polls : nat          (* number of [pollAll] calls made so far *)
}.

(** Perform call [c] and continue at [next]. *)
Definition call (c : Call) (next : PC) (s : State) : State :=
  mkState next (trace s ++ [c]) (polls s).

(** Continue at [next] without any call. *)
Definition jump (next : PC) (s : State) : State :=
  mkState next (trace s) (polls s).

(** ** main *)

(** [int main(int argc, char** argv)]: both parameters are unnamed in the
    source and never read. *)
Definition main (argc : Z) (argv : list string) : State :=
  mkState L50 [] 0.

Definition step (env : Collaborators) (s : State) : State :=
  match pc s with
  | L50 =>
      match prepare_outcome env with
      | Prepared => call (Looper_prepare 0) L53 s
      | PrepareDies st => call (Looper_prepare 0) (Halted (Died st)) s
      end
  | L53 => call ProcessState_self L54 s
  | L54 => call (setThreadPoolMaxThreadCount 9) L55 s
  | L55 => call startThreadPool L56 s
  | L56 => call giveThreadPoolName L57 s
  | L57 => call (disableBackgroundScheduling true) L60 s
  | L60 => call new_StatsService L61 s
  | L61 =>
      if addService_status env =? 0
      then call (addService "stats") L65 s
      else call (addService "stats") L62 s
  | L62 => call (ALOG LOG_ERROR "Failed to add service") L63 s
  | L63 => jump (Halted (Returned (-1))) s
  | L65 => call sayHiToStatsCompanion L67 s
  | L67 => call Startup L69 s
  | L69 => call new_StatsSocketListener L71 s
  | L71 => call (ALOG LOG_INFO "using statsd socket") L73 s
  | L73 =>
      if startListener_status env =? 0
      then call (startListener 600) L79 s
      else call (startListener 600) L74 s
  | L74 => jump (Halted (Exited 1)) s
  | L79 => jump L80 s                       (* [while (true)] *)
  | L80 =>
      match pollAll_result env (polls s) with
      | Some _ => mkState L79 (trace s ++ [pollAll (-1)]) (S (polls s))
      | None => mkState InPoll (trace s ++ [pollAll (-1)]) (S (polls s))
      end
  | L82 => call (ALOG LOG_WARN "statsd escaped from its loop.") L84 s
  | L84 => jump (Halted (Returned 1)) s
  | InPoll => s
  | Halted _ => s
  end.

(** [n] steps from [s]. *)
Fixpoint run_from (env : Collaborators) (n : nat) (s : State) : State :=
  match n with
  | O => s
  | S k => run_from env k (step env s)
  end.

(** The first [n] steps of the process. *)
Definition run (argc : Z) (argv : list string) (env : Collaborators)
    (n : nat) : State :=
  run_from env n (main argc argv).

(** ** Observations on states and traces *)

Definition halted (s : State) : option Halt :=
  match pc s with
  | Halted h => Some h
  | _ => None
  end.

(** The pump: the loop of lines 79-81, including a [pollAll] that blocks. *)
Definition in_pump (p : PC) : bool :=
  match p with
  | L79 | L80 | InPoll => true
  | _ => false
  end.

(** [needle] occurs in [msg]. *)
Definition mentions (needle msg : string) : bool :=
  match String.index 0 needle msg with
  | Some _ => true
  | None => false
  end.

(** [a] occurs in [l] strictly before an occurrence of [b]. *)
Definition precedes (a b : Call) (l : list Call) : Prop :=
  exists l1 l2 l3, l = l1 ++ a :: l2 ++ b :: l3.

(** A log record of priority [prio] whose text mentions [needle] is in [l]. *)
Definition logged (prio : LogPriority) (needle : string) (l : list Call) : Prop :=
  exists msg, In (ALOG prio msg) l /\ mentions needle msg = true.

(** Two environments give the same answers. *)
Definition same_answers (e1 e2 : Collaborators) : Prop :=
  prepare_outcome e1 = prepare_outcome e2 /\
  addService_status e1 = addService_status e2 /\
  startListener_status e1 = startListener_status e2 /\
  forall k, pollAll_result e1 k = pollAll_result e2 k.

(** The calls of the bootstrap up to and including the construction of the
    service object (lines 50-60). *)
Definition setup_calls : list Call :=
  [ Looper_prepare 0; ProcessState_self; setThreadPoolMaxThreadCount 9;
    startThreadPool; giveThreadPoolName; disableBackgroundScheduling true;
    new_StatsService ].

(** The whole trace when registration is refused. *)
Definition refused_calls : list Call :=
  setup_calls ++ [ addService "stats"; ALOG LOG_ERROR "Failed to add service" ].

(** The calls from registration to the listener start (lines 61-73). *)
Definition serving_calls : list Call :=
  setup_calls ++
  [ addService "stats"; sayHiToStatsCompanion; Startup;
    new_StatsSocketListener; ALOG LOG_INFO "using statsd socket";
    startListener 600 ].

(** The literal arguments [main] passes. *)
Definition literal_args (c : Call) : Prop :=
  match c with
  | Looper_prepare opts => opts = 0
  | setThreadPoolMaxThreadCount maxThreads => maxThreads = 9
  | disableBackgroundScheduling disable => disable = true
  | addService name => name = "stats"
  | startListener backlog => backlog = 600
  | pollAll timeoutMillis => timeoutMillis = -1
  | _ => True
  end.

(** The ways [main] itself ends the process: [return -1] on line 63 and
    [exit(1)] on line 74; the control points after the loop are left out. *)
Definition live_pc (p : PC) : Prop :=
  match p with
  | L82 | L84 => False
  | Halted (Returned ret) => ret = -1
  | Halted (Exited code) => code = 1
  | _ => True
  end.

(** Sample environments. *)
Definition env_happy : Collaborators :=
  mkCollaborators Prepared 0 0 (fun _ => Some 0).

Definition env_refused : Collaborators :=
  mkCollaborators Prepared (-22) 0 (fun _ => Some 0).

Definition env_bind_failure : Collaborators :=
  mkCollaborators Prepared 0 (-1) (fun _ => Some 0).

Definition env_no_looper : Collaborators :=
  mkCollaborators (PrepareDies 134) 0 0 (fun _ => Some 0).

(** Gives the answers of [env_happy], computed another way. *)
Definition env_happy' : Collaborators :=
  mkCollaborators Prepared (5 - 5) (Z.land 256 255)
    (fun k => Some (0 * Z.of_nat k)).

Definition env_quiet : Collaborators :=
  mkCollaborators Prepared 0 0 (fun _ => None).

(** ** The courses of a run *)

(** [t] is an initial segment of [l]. *)
Definition initial_segment (t l : list Call) : Prop :=
  exists r, l = t ++ r.

(** The calls of lines 50-80 in program order, along the branches the answers
    of [env] select, with [k] calls of [pollAll] in the loop. *)
Definition course (env : Collaborators) (k : nat) : list Call :=
  match prepare_outcome env with
  | PrepareDies _ => [Looper_prepare 0]
  | Prepared =>
      if addService_status env =? 0
      then serving_calls ++
           (if startListener_status env =? 0
            then repeat (pollAll (-1)) k
            else [])
      else refused_calls
  end.

Definition is_poll (c : Call) : bool :=
  match c with
  | pollAll _ => true
  | _ => false
  end.

(** The calls of [l] made outside the loop. *)
Definition bootstrap_calls (l : list Call) : list Call :=
  filter (fun c => negb (is_poll c)) l.

Definition returns (r : option Z) : bool :=
  match r with
  | Some _ => true
  | None => false
  end.

(** Two environments agree on what [main] tests: whether each status is
    zero, and whether each call of [pollAll] returns. *)
Definition same_tests (e1 e2 : Collaborators) : Prop :=
  (addService_status e1 =? 0) = (addService_status e2 =? 0) /\
  (startListener_status e1 =? 0) = (startListener_status e2 =? 0) /\
  forall k, returns (pollAll_result e1 k) = returns (pollAll_result e2 k).


(** More sample environments. *)
Definition env_bind_failure' : Collaborators :=
  mkCollaborators Prepared 0 77 (fun k => Some (Z.of_nat k + 3)).

(** The first three calls of [pollAll] return, the fourth never does. *)
Definition env_stuck : Collaborators :=
  mkCollaborators Prepared 0 0
    (fun k => if (k <? 3)%nat then Some (Z.of_nat k - 4) else None).

End Statsd.

Import Statsd.

(** * Properties *)

(** ** General facts about the machine *)

Section Machine.

Variable env : Collaborators.

Lemma run_from_add (n m : nat) (s : State) :
  run_from env (n + m) s = run_from env m (run_from env n s).
Proof.
  revert s; induction n as [|n IH]; intros s; simpl; [reflexivity | apply IH].
Qed.

Lemma run_from_S (n : nat) (s : State) :
  run_from env (S n) s = step env (run_from env n s).
Proof.
  replace (S n) with (n + 1)%nat by lia.
  rewrite run_from_add. reflexivity.
Qed.

Lemma step_extends (s : State) :
  exists t, trace (step env s) = trace s ++ t.
Proof.
  unfold step, call, jump.
  destruct (pc s) eqn:Hpc;
    repeat match goal with
           | |- context [match ?x with _ => _ end] => destruct x
           end; cbn [trace];
    first [ now eexists | exists []; now rewrite app_nil_r ].
Qed.

Lemma run_from_extends (n : nat) (s : State) :
  exists t, trace (run_from env n s) = trace s ++ t.
Proof.
  revert s; induction n as [|n IH]; intros s; simpl.
  - exists []. now rewrite app_nil_r.
  - destruct (IH (step env s)) as [t2 H2].
    destruct (step_extends s) as [t1 H1].
    exists (t1 ++ t2). now rewrite H2, H1, app_assoc.
Qed.

Lemma halted_stays (n : nat) (s : State) (h : Halt) :
  pc s = Halted h -> run_from env n s = s.
Proof.
  intros H; induction n as [|n IH]; simpl; [reflexivity|].
  replace (step env s) with s; [exact IH|].
  unfold step. now rewrite H.
Qed.

Lemma pump_step (s : State) :
  in_pump (pc s) = true ->
  in_pump (pc (step env s)) = true /\
  exists j, trace (step env s) = trace s ++ repeat (pollAll (-1)) j.
Proof.
  unfold step, jump.
  destruct (pc s) eqn:Hpc; try discriminate; intros _.
  - cbn. split; [reflexivity|]. exists 0%nat. now rewrite app_nil_r.
  - destruct (pollAll_result env (polls s)); cbn;
      (split; [reflexivity | now exists 1%nat]).
  - rewrite Hpc. split; [reflexivity|]. exists 0%nat. now rewrite app_nil_r.
Qed.

Lemma pump_stays (n : nat) (s : State) :
  in_pump (pc s) = true ->
  in_pump (pc (run_from env n s)) = true /\
  exists j, trace (run_from env n s) = trace s ++ repeat (pollAll (-1)) j.
Proof.
  revert s; induction n as [|n IH]; intros s H; simpl.
  - split; [exact H|]. exists 0%nat. now rewrite app_nil_r.
  - destruct (pump_step s H) as [H1 [j1 E1]].
    destruct (IH _ H1) as [H2 [j2 E2]].
    split; [exact H2|].
    exists (j1 + j2)%nat.
    now rewrite E2, E1, repeat_app, app_assoc.
Qed.

Lemma step_literal_args (s : State) :
  Forall literal_args (trace s) -> Forall literal_args (trace (step env s)).
Proof.
  intros H. unfold step, call, jump.
  destruct (pc s);
    repeat match goal with
           | |- context [match ?x with _ => _ end] => destruct x
           end; cbn [trace];
    try exact H;
    apply Forall_app; (split; [exact H|]); repeat constructor.
Qed.

Lemma step_live (s : State) : live_pc (pc s) -> live_pc (pc (step env s)).
Proof.
  unfold step, call, jump.
  destruct (pc s) eqn:Hpc; cbn [live_pc]; intros H;
    try contradiction;
    try (rewrite Hpc; exact H);
    repeat match goal with
           | |- context [match ?x with _ => _ end] => destruct x
           end; cbn; auto.
Qed.

Section Run.

Variables (argc : Z) (argv : list string).

Lemma run_S (n : nat) :
  run argc argv env (S n) = step env (run argc argv env n).
Proof. apply run_from_S. Qed.

Lemma run_add (n k : nat) :
  run argc argv env (n + k) = run_from env k (run argc argv env n).
Proof. apply run_from_add. Qed.

Lemma run_le (n m : nat) :
  (n <= m)%nat -> run argc argv env m = run_from env (m - n) (run argc argv env n).
Proof.
  intros H. rewrite <- run_add. f_equal. lia.
Qed.

Lemma trace_grows (n m : nat) :
  (n <= m)%nat -> exists t, trace (run argc argv env m) = trace (run argc argv env n) ++ t.
Proof.
  intros H. rewrite (run_le n m H). apply run_from_extends.
Qed.

Lemma In_trace_grows (n m : nat) (c : Call) :
  (n <= m)%nat -> In c (trace (run argc argv env n)) -> In c (trace (run argc argv env m)).
Proof.
  intros H Hin. destruct (trace_grows n m H) as [t E].
  rewrite E. apply in_or_app. now left.
Qed.

Lemma run_halted (n m : nat) (h : Halt) :
  pc (run argc argv env n) = Halted h -> (n <= m)%nat -> run argc argv env m = run argc argv env n.
Proof.
  intros H Hle. rewrite (run_le n m Hle). now apply halted_stays with h.
Qed.

(** Once the process has halted, every call it ever makes is in the final
    trace. *)
Lemma In_trace_final (n m : nat) (h : Halt) (c : Call) :
  pc (run argc argv env n) = Halted h ->
  In c (trace (run argc argv env m)) -> In c (trace (run argc argv env n)).
Proof.
  intros H Hin.
  destruct (Nat.le_gt_cases n m) as [Hle|Hgt].
  - now rewrite <- (run_halted n m h H Hle).
  - apply In_trace_grows with m; [lia | exact Hin].
Qed.

Lemma run_literal_args (n : nat) :
  Forall literal_args (trace (run argc argv env n)).
Proof.
  induction n as [|n IH]; [constructor|].
  rewrite run_S. now apply step_literal_args.
Qed.

Lemma run_live (n : nat) : live_pc (pc (run argc argv env n)).
Proof.
  induction n as [|n IH]; [exact I|].
  rewrite run_S. now apply step_live.
Qed.

(** A process that halts never was in the pump. *)
Lemma halting_run_not_in_pump (n m : nat) (h : Halt) :
  pc (run argc argv env n) = Halted h ->
  in_pump (pc (run argc argv env m)) = false.
Proof.
  intros H.
  destruct (Nat.le_gt_cases n m) as [Hle|Hgt].
  - now rewrite (run_halted n m h H Hle), H.
  - destruct (in_pump (pc (run argc argv env m))) eqn:E; [|reflexivity].
    destruct (pump_stays (n - m) _ E) as [E' _].
    rewrite <- run_le, H in E' by lia. discriminate.
Qed.

(** *** The four courses of the bootstrap, state by state *)

Hypothesis prepared : prepare_outcome env = Prepared.

Lemma run_setup : run argc argv env 7 = mkState L61 setup_calls 0.
Proof.
  unfold run, main. cbn [run_from]. unfold step at 7. cbn [pc].
  rewrite prepared. reflexivity.
Qed.

Lemma run_registered :
  exists p, run argc argv env 8 = mkState p (setup_calls ++ [addService "stats"]) 0.
Proof.
  rewrite run_S, run_setup. unfold step; cbn [pc].
  destruct (addService_status env =? 0); eexists; reflexivity.
Qed.

Lemma run_refused :
  addService_status env <> 0 ->
  run argc argv env 10 = mkState (Halted (Returned (-1))) refused_calls 0.
Proof.
  intros H. apply Z.eqb_neq in H.
  change 10%nat with (7 + 3)%nat.
  rewrite run_add, run_setup.
  cbn [run_from]. unfold step at 3; cbn [pc]. rewrite H. reflexivity.
Qed.

Lemma run_greeted :
  addService_status env = 0 ->
  run argc argv env 9 =
  mkState L67 (setup_calls ++ [addService "stats"; sayHiToStatsCompanion]) 0.
Proof.
  intros H. apply Z.eqb_eq in H.
  change 9%nat with (7 + 2)%nat.
  rewrite run_add, run_setup.
  cbn [run_from]. unfold step at 2; cbn [pc]. rewrite H. reflexivity.
Qed.

Lemma run_started :
  addService_status env = 0 ->
  run argc argv env 10 =
  mkState L69 (setup_calls ++ [addService "stats"; sayHiToStatsCompanion; Startup]) 0.
Proof.
  intros H. apply Z.eqb_eq in H.
  change 10%nat with (7 + 3)%nat.
  rewrite run_add, run_setup.
  cbn [run_from]. unfold step at 3; cbn [pc]. rewrite H. reflexivity.
Qed.

Lemma run_to_listener :
  addService_status env = 0 ->
  run argc argv env 12 =
  mkState L73 (setup_calls ++
               [addService "stats"; sayHiToStatsCompanion; Startup;
                new_StatsSocketListener; ALOG LOG_INFO "using statsd socket"]) 0.
Proof.
  intros H. change 12%nat with (10 + 2)%nat.
  rewrite run_add, (run_started H). reflexivity.
Qed.

Lemma run_bind_failure :
  addService_status env = 0 -> startListener_status env <> 0 ->
  run argc argv env 14 = mkState (Halted (Exited 1)) serving_calls 0.
Proof.
  intros Ha H. apply Z.eqb_neq in H.
  change 14%nat with (12 + 2)%nat.
  rewrite run_add, (run_to_listener Ha).
  cbn [run_from]. unfold step at 2; cbn [pc]. rewrite H. reflexivity.
Qed.

Lemma run_pump :
  addService_status env = 0 -> startListener_status env = 0 ->
  run argc argv env 14 = mkState L80 serving_calls 0.
Proof.
  intros Ha H. apply Z.eqb_eq in H.
  change 14%nat with (12 + 2)%nat.
  rewrite run_add, (run_to_listener Ha).
  cbn [run_from]. unfold step at 2; cbn [pc]. rewrite H. reflexivity.
Qed.

End Run.

Lemma run_died (argc : Z) (argv : list string) (st : positive) :
  prepare_outcome env = PrepareDies st ->
  run argc argv env 1 = mkState (Halted (Died st)) [Looper_prepare 0] 0.
Proof.
  intros H. unfold run, main. cbn [run_from]. unfold step; cbn [pc].
  rewrite H. reflexivity.
Qed.

End Machine.

(** ** Order of calls in a trace *)

Lemma precedes_here (a b : Call) (l : list Call) :
  In b l -> precedes a b (a :: l).
Proof.
  intros H. apply in_split in H. destruct H as [l2 [l3 E]].
  exists [], l2, l3. now rewrite E.
Qed.

Lemma precedes_cons (a b c : Call) (l : list Call) :
  precedes a b l -> precedes a b (c :: l).
Proof.
  intros [l1 [l2 [l3 E]]]. exists (c :: l1), l2, l3. now rewrite E.
Qed.

Lemma precedes_app (a b : Call) (l t : list Call) :
  precedes a b l -> precedes a b (l ++ t).
Proof.
  intros [l1 [l2 [l3 E]]]. exists l1, l2, (l3 ++ t).
  rewrite E. now rewrite <- !app_assoc, <- !app_comm_cons, <- app_assoc.
Qed.

(** Decide [precedes] and membership on a trace that is written out. *)
Ltac in_calls := cbn; intuition congruence.

Ltac precedes_calls :=
  cbv [refused_calls serving_calls setup_calls app];
  repeat first [ apply precedes_here; in_calls | apply precedes_cons ].

Ltac absurd_call :=
  match goal with
  | H : In _ _ |- _ => cbn in H; intuition discriminate
  end.

(** ** Registration refused *)

(** C1.  When registering the service object under the name "stats" returns a
    non-zero status, the process logs an error whose text mentions "service"
    and ends by returning -1; the greeting, the startup hook, the construction
    of the socket listener and the listener start are never called. *)
Theorem C1_registration_refused (argc : Z) (argv : list string)
    (env : Collaborators) :
  prepare_outcome env = Prepared ->
  addService_status env <> 0 ->
  (exists n, forall m, (n <= m)%nat ->
     let s := run argc argv env m in
     In (addService "stats") (trace s) /\
     logged LOG_ERROR "service" (trace s) /\
     halted s = Some (Returned (-1)) /\
     status (Returned (-1)) = -1) /\
  (forall m,
     let t := trace (run argc argv env m) in
     ~ In sayHiToStatsCompanion t /\
     ~ In Startup t /\
     ~ In new_StatsSocketListener t /\
     forall backlog, ~ In (startListener backlog) t).
Proof.
  intros Hp Ha.
  pose proof (run_refused env argc argv Hp Ha) as Hfin.
  assert (Hpc : pc (run argc argv env 10) = Halted (Returned (-1)))
    by now rewrite Hfin.
  split.
  - exists 10%nat. intros m Hm. cbv zeta.
    rewrite (run_halted env argc argv 10 m _ Hpc Hm), Hfin.
    repeat split.
    + in_calls.
    + exists "Failed to add service". split; [in_calls | reflexivity].
  - intros m. cbv zeta.
    assert (Hall : forall c, In c (trace (run argc argv env m)) ->
                             In c refused_calls).
    { intros c Hin.
      apply (In_trace_final env argc argv 10 m _ _ Hpc) in Hin.
      now rewrite Hfin in Hin. }
    repeat split; unfold not; intros; apply Hall in H; absurd_call.
Qed.

(** ** Listener start *)

(** C2.  After a successful registration: when the listener start returns
    zero, control reaches the pump and [pollAll] is called; when it returns
    non-zero, the process ends through [exit(1)], the pump is never entered
    and no [pollAll] is ever called, and the registration and the startup hook
    both came before the listener start. *)
Theorem C2_listener_start (argc : Z) (argv : list string)
    (env : Collaborators) :
  prepare_outcome env = Prepared ->
  addService_status env = 0 ->
  (startListener_status env = 0 ->
   exists n,
     pc (run argc argv env n) = L80 /\
     trace (run argc argv env (S n)) =
     trace (run argc argv env n) ++ [pollAll (-1)]) /\
  (startListener_status env <> 0 ->
   (exists n, forall m, (n <= m)%nat ->
      let s := run argc argv env m in
      halted s = Some (Exited 1) /\
      status (Exited 1) = 1 /\
      precedes (addService "stats") (startListener 600) (trace s) /\
      precedes Startup (startListener 600) (trace s)) /\
   (forall m,
      let s := run argc argv env m in
      in_pump (pc s) = false /\
      forall timeoutMillis, ~ In (pollAll timeoutMillis) (trace s))).
Proof.
  intros Hp Ha. split; intros Hl.
  - exists 14%nat.
    rewrite (run_S env argc argv 14), (run_pump env argc argv Hp Ha Hl).
    split; [reflexivity|].
    unfold step; cbn [pc polls trace].
    now destruct (pollAll_result env 0).
  - pose proof (run_bind_failure env argc argv Hp Ha Hl) as Hfin.
    assert (Hpc : pc (run argc argv env 14) = Halted (Exited 1))
      by now rewrite Hfin.
    split.
    + exists 14%nat. intros m Hm. cbv zeta.
      rewrite (run_halted env argc argv 14 m _ Hpc Hm), Hfin.
      repeat split; cbn [trace]; precedes_calls.
    + intros m. cbv zeta. split.
      * exact (halting_run_not_in_pump env argc argv 14 m _ Hpc).
      * intros t Hin.
        apply (In_trace_final env argc argv 14 m _ _ Hpc) in Hin.
        rewrite Hfin in Hin. absurd_call.
Qed.

(** ** When pollAll returns *)







(** ** Greeting *)

(** C4.  When registration succeeds, the greeting to the companion is called,
    after the registration and before the startup hook; at no moment has the
    greeting been called without the registration before it, or the startup
    hook without the greeting before it. *)
Theorem C4_greeting_between (argc : Z) (argv : list string)
    (env : Collaborators) :
  prepare_outcome env = Prepared ->
  addService_status env = 0 ->
  (exists n, forall m, (n <= m)%nat ->
     let t := trace (run argc argv env m) in
     precedes (addService "stats") sayHiToStatsCompanion t /\
     precedes sayHiToStatsCompanion Startup t) /\
  (forall m,
     let t := trace (run argc argv env m) in
     (In sayHiToStatsCompanion t ->
      precedes (addService "stats") sayHiToStatsCompanion t) /\
     (In Startup t -> precedes sayHiToStatsCompanion Startup t)).
Proof.
  intros Hp Ha.
  pose proof (run_started env argc argv Hp Ha) as H10.
  pose proof (run_greeted env argc argv Hp Ha) as H9.
  destruct (run_registered env argc argv Hp) as [p8 H8].
  assert (Hlate : forall m, (10 <= m)%nat ->
            precedes (addService "stats") sayHiToStatsCompanion
              (trace (run argc argv env m)) /\
            precedes sayHiToStatsCompanion Startup
              (trace (run argc argv env m))).
  { intros m Hm. destruct (trace_grows env argc argv 10 m Hm) as [t E].
    rewrite E, H10. cbn [trace].
    split; apply precedes_app; precedes_calls. }
  split; [exists 10%nat; exact Hlate|].
  intros m. cbv zeta. split; intros Hin.
  - destruct (Nat.le_gt_cases 9 m) as [Hle|Hgt].
    + destruct (trace_grows env argc argv 9 m Hle) as [t E].
      rewrite E, H9. cbn [trace]. apply precedes_app. precedes_calls.
    + apply (In_trace_grows env argc argv m 8) in Hin; [|lia].
      rewrite H8 in Hin. absurd_call.
  - destruct (Nat.le_gt_cases 10 m) as [Hle|Hgt].
    + now apply Hlate.
    + apply (In_trace_grows env argc argv m 9) in Hin; [|lia].
      rewrite H9 in Hin. absurd_call.
Qed.

(** ** Request runtime *)

(** C5.  When the process stands at the registration (line 61), nothing has
    been registered yet and the calls made so far are exactly: prepare the
    looper, get the process state, set the thread-pool cap to 9, start the
    pool, name it, disable background scheduling on the current thread's IPC
    state, construct the service.  Whenever the registration is in the trace,
    these four configuration calls are before it; the cap is never set to a
    value other than 9 and background scheduling is never re-enabled. *)
Theorem C5_runtime_configured (argc : Z) (argv : list string)
    (env : Collaborators) :
  prepare_outcome env = Prepared ->
  (exists n,
     pc (run argc argv env n) = L61 /\
     trace (run argc argv env n) = setup_calls /\
     ~ In (addService "stats") (trace (run argc argv env n)) /\
     precedes (setThreadPoolMaxThreadCount 9) startThreadPool setup_calls /\
     precedes startThreadPool giveThreadPoolName setup_calls /\
     In (disableBackgroundScheduling true) setup_calls) /\
  (forall m,
     let t := trace (run argc argv env m) in
     In (addService "stats") t ->
     precedes (setThreadPoolMaxThreadCount 9) (addService "stats") t /\
     precedes startThreadPool (addService "stats") t /\
     precedes giveThreadPoolName (addService "stats") t /\
     precedes (disableBackgroundScheduling true) (addService "stats") t) /\
  (forall m,
     let t := trace (run argc argv env m) in
     (forall maxThreads,
        In (setThreadPoolMaxThreadCount maxThreads) t -> maxThreads = 9) /\
     (forall disable,
        In (disableBackgroundScheduling disable) t -> disable = true)).
Proof.
  intros Hp.
  pose proof (run_setup env argc argv Hp) as H7.
  destruct (run_registered env argc argv Hp) as [p8 H8].
  split; [|split].
  - exists 7%nat. rewrite H7. cbn [pc trace].
    repeat split; try precedes_calls; try in_calls.
  - intros m. cbv zeta. intros Hin.
    destruct (Nat.le_gt_cases 8 m) as [Hle|Hgt].
    + destruct (trace_grows env argc argv 8 m Hle) as [t E].
      rewrite E, H8. cbn [trace].
      repeat split; apply precedes_app; precedes_calls.
    + apply (In_trace_grows env argc argv m 7) in Hin; [|lia].
      rewrite H7 in Hin. absurd_call.
  - intros m. cbv zeta.
    pose proof (run_literal_args env argc argv m) as Hlit.
    rewrite Forall_forall in Hlit.
    split; intros x Hin; exact (Hlit _ Hin).
Qed.

(** ** Backlog *)

(** C6.  Whenever the process stands at the listener start (line 73), its next
    step calls [startListener] with backlog 600; no run ever calls
    [startListener] with another backlog. *)
Theorem C6_backlog_600 (argc : Z) (argv : list string)
    (env : Collaborators) (n : nat) :
  pc (run argc argv env n) = L73 ->
  trace (run argc argv env (S n)) =
  trace (run argc argv env n) ++ [startListener 600] /\
  (forall m backlog,
     In (startListener backlog) (trace (run argc argv env m)) ->
     backlog = 600).
Proof.
  intros H. split.
  - rewrite run_S. unfold step. rewrite H.
    now destruct (startListener_status env =? 0).
  - intros m backlog Hin.
    pose proof (run_literal_args env argc argv m) as Hlit.
    rewrite Forall_forall in Hlit. exact (Hlit _ Hin).
Qed.

(** ** Determinism *)

Lemma step_same_answers (e1 e2 : Collaborators) (s : State) :
  same_answers e1 e2 -> step e1 s = step e2 s.
Proof.
  intros (Hp & Ha & Hl & Hk). unfold step.
  now rewrite Hp, Ha, Hl, Hk.
Qed.

Lemma run_from_same_answers (e1 e2 : Collaborators) (n : nat) (s : State) :
  same_answers e1 e2 -> run_from e1 n s = run_from e2 n s.
Proof.
  intros H. revert s. induction n as [|n IH]; intros s; simpl.
  - reflexivity.
  - now rewrite (step_same_answers e1 e2 s H), IH.
Qed.

(** C7.  Two runs whose collaborators give the same answers are in the same
    state, with the same trace of calls, after any number of steps, whatever
    the two argument vectors are. *)
Theorem C7_deterministic (argc1 argc2 : Z) (argv1 argv2 : list string)
    (env1 env2 : Collaborators) (n : nat) :
  same_answers env1 env2 ->
  run argc1 argv1 env1 n = run argc2 argv2 env2 n /\
  trace (run argc1 argv1 env1 n) = trace (run argc2 argv2 env2 n).
Proof.
  intros H.
  assert (E : run argc1 argv1 env1 n = run argc2 argv2 env2 n)
    by (unfold run, main; now apply run_from_same_answers).
  now rewrite E.
Qed.

(** ** Exit statuses and the pump *)

Lemma observed_status_nonneg (h : Halt) : 0 <= observed_status h.
Proof.
  destruct h as [ret|code|st]; cbn [observed_status];
    try (apply Z.land_nonneg; right); lia.
Qed.

(** The only ways a run ends. *)
Lemma halted_cases (argc : Z) (argv : list string) (env : Collaborators)
    (m : nat) (h : Halt) :
  halted (run argc argv env m) = Some h ->
  h = Returned (-1) \/ h = Exited 1 \/ exists st, h = Died st.
Proof.
  unfold halted. intros H.
  pose proof (run_live env argc argv m) as Hl.
  destruct (pc (run argc argv env m)) as
    [| | | | | | | | | | | | | | | | | | | | |h']; try discriminate.
  injection H as <-. cbn in Hl.
  destruct h' as [ret|code|st]; subst; eauto.
Qed.

(** C8.  No run ends with status 0, neither as the integer the program hands
    over nor as the status its parent observes.  Once the process is in the
    pump it stays there: it never halts, and the only calls it adds to the
    trace are calls of [pollAll] with timeout -1. *)
Theorem C8_never_zero_pump_terminal (argc : Z) (argv : list string)
    (env : Collaborators) :
  (forall m h,
     halted (run argc argv env m) = Some h ->
     status h <> 0 /\ observed_status h <> 0) /\
  (forall n k,
     in_pump (pc (run argc argv env n)) = true ->
     in_pump (pc (run argc argv env (n + k))) = true /\
     halted (run argc argv env (n + k)) = None /\
     exists j,
       trace (run argc argv env (n + k)) =
       trace (run argc argv env n) ++ repeat (pollAll (-1)) j).
Proof.
  split.
  - intros m h H.
    destruct (halted_cases argc argv env m h H) as [->|[->|[st ->]]];
      cbn; split; discriminate.
  - intros n k H. rewrite run_add.
    destruct (pump_stays env k _ H) as [H1 H2].
    repeat split; [exact H1 | | exact H2].
    unfold halted.
    now destruct (pc (run_from env k (run argc argv env n))).
Qed.

(** ** Looper preparation *)

(** C9.  If preparing the looper fails, the process is over after that one
    call, with a non-zero status: the call of [Looper::prepare] is the only
    call ever made. *)
Theorem C9_prepare_failure (argc : Z) (argv : list string)
    (env : Collaborators) (st : positive) :
  prepare_outcome env = PrepareDies st ->
  forall m, (1 <= m)%nat ->
    let s := run argc argv env m in
    halted s = Some (Died st) /\
    status (Died st) <> 0 /\
    observed_status (Died st) <> 0 /\
    trace s = [Looper_prepare 0].
Proof.
  intros H m Hm. cbv zeta.
  pose proof (run_died env argc argv st H) as H1.
  assert (Hpc : pc (run argc argv env 1) = Halted (Died st))
    by now rewrite H1.
  rewrite (run_halted env argc argv 1 m _ Hpc Hm), H1.
  cbn. repeat split; discriminate.
Qed.

(** ** The status -1 at the process boundary *)

(** C10.  On a refused registration [main] returns the literal -1; the parent
    observes 255, which is -1 modulo 256.  No run is ever observed to end
    with status -1.  The two failures stay apart: -1 differs from 1 as
    returned, and 255 from 1 as observed. *)
Theorem C10_minus_one_observed_as_255 (argc : Z) (argv : list string)
    (env : Collaborators) :
  prepare_outcome env = Prepared ->
  addService_status env <> 0 ->
  (exists n, forall m, (n <= m)%nat ->
     exists h,
       halted (run argc argv env m) = Some h /\
       h = Returned (-1) /\
       status h = -1 /\
       observed_status h = 255 /\
       observed_status h = (-1) mod 256) /\
  (forall argc' argv' env' m h,
     halted (run argc' argv' env' m) = Some h -> observed_status h <> -1) /\
  status (Returned (-1)) <> status (Exited 1) /\
  observed_status (Returned (-1)) <> observed_status (Exited 1).
Proof.
  intros Hp Ha.
  pose proof (run_refused env argc argv Hp Ha) as Hfin.
  assert (Hpc : pc (run argc argv env 10) = Halted (Returned (-1)))
    by now rewrite Hfin.
  repeat split; try discriminate.
  - exists 10%nat. intros m Hm. exists (Returned (-1)).
    rewrite (run_halted env argc argv 10 m _ Hpc Hm), Hfin.
    repeat split.
  - intros argc' argv' env' m h _.
    pose proof (observed_status_nonneg h). lia.
Qed.

(** * The theorems at sample runs *)

Lemma C1_registration_refused_witness :
  prepare_outcome env_refused = Prepared /\
  addService_status env_refused <> 0 /\
  forall m,
    let t := trace (run 1 ["statsd"] env_refused m) in
    ~ In sayHiToStatsCompanion t /\
    ~ In Startup t /\
    ~ In new_StatsSocketListener t /\
    forall backlog, ~ In (startListener backlog) t.
Proof.
  split; [reflexivity|]. split; [discriminate|].
  apply (C1_registration_refused 1 ["statsd"] env_refused);
    [reflexivity | discriminate].
Defined.

Lemma C2_listener_start_witness :
  (prepare_outcome env_happy = Prepared /\
   addService_status env_happy = 0 /\
   startListener_status env_happy = 0 /\
   exists n,
     pc (run 1 ["statsd"] env_happy n) = L80 /\
     trace (run 1 ["statsd"] env_happy (S n)) =
     trace (run 1 ["statsd"] env_happy n) ++ [pollAll (-1)]) /\
  (prepare_outcome env_bind_failure = Prepared /\
   addService_status env_bind_failure = 0 /\
   startListener_status env_bind_failure <> 0 /\
   forall m,
     let s := run 1 ["statsd"] env_bind_failure m in
     in_pump (pc s) = false /\
     forall timeoutMillis, ~ In (pollAll timeoutMillis) (trace s)).
Proof.
  split.
  - do 3 (split; [reflexivity|]).
    apply (C2_listener_start 1 ["statsd"] env_happy); reflexivity.
  - do 2 (split; [reflexivity|]). split; [discriminate|].
    apply (C2_listener_start 1 ["statsd"] env_bind_failure);
      [reflexivity | reflexivity | discriminate].
Defined.


Lemma C4_greeting_between_witness :
  prepare_outcome env_happy = Prepared /\
  addService_status env_happy = 0 /\
  forall m,
    let t := trace (run 1 ["statsd"] env_happy m) in
    (In sayHiToStatsCompanion t ->
     precedes (addService "stats") sayHiToStatsCompanion t) /\
    (In Startup t -> precedes sayHiToStatsCompanion Startup t).
Proof.
  do 2 (split; [reflexivity|]).
  apply (C4_greeting_between 1 ["statsd"] env_happy); reflexivity.
Defined.

Lemma C5_runtime_configured_witness :
  prepare_outcome env_refused = Prepared /\
  forall m,
    let t := trace (run 1 ["statsd"] env_refused m) in
    In (addService "stats") t ->
    precedes (setThreadPoolMaxThreadCount 9) (addService "stats") t /\
    precedes startThreadPool (addService "stats") t /\
    precedes giveThreadPoolName (addService "stats") t /\
    precedes (disableBackgroundScheduling true) (addService "stats") t.
Proof.
  split; [reflexivity|].
  apply (C5_runtime_configured 1 ["statsd"] env_refused). reflexivity.
Defined.

Lemma C6_backlog_600_witness :
  pc (run 1 ["statsd"] env_bind_failure 12) = L73 /\
  trace (run 1 ["statsd"] env_bind_failure 13) =
  trace (run 1 ["statsd"] env_bind_failure 12) ++ [startListener 600].
Proof.
  split; [reflexivity|].
  apply (C6_backlog_600 1 ["statsd"] env_bind_failure 12). reflexivity.
Defined.

Lemma C7_deterministic_witness :
  same_answers env_happy env_happy' /\
  run 1 ["statsd"] env_happy 20 =
  run 3 ["statsd"; "--verbose"; "x"] env_happy' 20.
Proof.
  assert (H : same_answers env_happy env_happy')
    by (repeat split; intros k; reflexivity).
  split; [exact H|].
  apply (C7_deterministic 1 3 ["statsd"] ["statsd"; "--verbose"; "x"]
           env_happy env_happy' 20 H).
Defined.

Lemma C8_never_zero_pump_terminal_witness :
  (halted (run 1 ["statsd"] env_bind_failure 14) = Some (Exited 1) /\
   status (Exited 1) <> 0 /\ observed_status (Exited 1) <> 0) /\
  (in_pump (pc (run 1 ["statsd"] env_quiet 14)) = true /\
   halted (run 1 ["statsd"] env_quiet (14 + 6)) = None).
Proof.
  split.
  - split; [reflexivity|].
    apply (C8_never_zero_pump_terminal 1 ["statsd"] env_bind_failure) with 14%nat.
    reflexivity.
  - split; [reflexivity|].
    apply (C8_never_zero_pump_terminal 1 ["statsd"] env_quiet). reflexivity.
Defined.

Lemma C9_prepare_failure_witness :
  prepare_outcome env_no_looper = PrepareDies 134 /\
  let s := run 1 ["statsd"] env_no_looper 5 in
  halted s = Some (Died 134) /\
  status (Died 134) <> 0 /\
  observed_status (Died 134) <> 0 /\
  trace s = [Looper_prepare 0].
Proof.
  split; [reflexivity|].
  apply (C9_prepare_failure 1 ["statsd"] env_no_looper 134 eq_refl 5). lia.
Defined.

Lemma C10_minus_one_observed_as_255_witness :
  prepare_outcome env_refused = Prepared /\
  addService_status env_refused <> 0 /\
  exists n, forall m, (n <= m)%nat ->
    exists h,
      halted (run 1 ["statsd"] env_refused m) = Some h /\
      h = Returned (-1) /\
      status h = -1 /\
      observed_status h = 255 /\
      observed_status h = (-1) mod 256.
Proof.
  split; [reflexivity|]. split; [discriminate|].
  apply (C10_minus_one_observed_as_255 1 ["statsd"] env_refused);
    [reflexivity | discriminate].
Defined.

(** * Further properties of main *)

(** ** Shape of the traces *)

Lemma initial_segment_refl (t : list Call) : initial_segment t t.
Proof. exists []. now rewrite app_nil_r. Qed.

Lemma In_initial_segment (c : Call) (t l : list Call) :
  initial_segment t l -> In c t -> In c l.
Proof.
  intros [r ->] H. apply in_or_app. now left.
Qed.

Section Courses.

Variables (env : Collaborators) (argc : Z) (argv : list string).

(** Two halted states of one run are the same state. *)
Lemma halted_agree (n m : nat) (h h' : Halt) :
  pc (run argc argv env n) = Halted h ->
  pc (run argc argv env m) = Halted h' ->
  run argc argv env m = run argc argv env n.
Proof.
  intros Hn Hm.
  destruct (Nat.le_gt_cases n m) as [Hle|Hgt].
  - exact (run_halted env argc argv n m h Hn Hle).
  - symmetry. apply (run_halted env argc argv m n h' Hm). lia.
Qed.

Lemma halting_trace_segment (n m : nat) (h : Halt) :
  pc (run argc argv env n) = Halted h ->
  initial_segment (trace (run argc argv env m)) (trace (run argc argv env n)).
Proof.
  intros H.
  destruct (Nat.le_gt_cases n m) as [Hle|Hgt].
  - rewrite (run_halted env argc argv n m h H Hle).
    apply initial_segment_refl.
  - apply (trace_grows env argc argv m n). lia.
Qed.

Lemma course_died (st : positive) (k : nat) :
  prepare_outcome env = PrepareDies st -> course env k = [Looper_prepare 0].
Proof. intros H. unfold course. now rewrite H. Qed.

Lemma course_refused (k : nat) :
  prepare_outcome env = Prepared -> addService_status env <> 0 ->
  course env k = refused_calls.
Proof.
  intros Hp Ha. apply Z.eqb_neq in Ha. unfold course. now rewrite Hp, Ha.
Qed.

Lemma course_bind_failure (k : nat) :
  prepare_outcome env = Prepared -> addService_status env = 0 ->
  startListener_status env <> 0 ->
  course env k = serving_calls.
Proof.
  intros Hp Ha Hl. apply Z.eqb_eq in Ha. apply Z.eqb_neq in Hl.
  unfold course. now rewrite Hp, Ha, Hl, app_nil_r.
Qed.

Lemma course_pump (k : nat) :
  prepare_outcome env = Prepared -> addService_status env = 0 ->
  startListener_status env = 0 ->
  course env k = serving_calls ++ repeat (pollAll (-1)) k.
Proof.
  intros Hp Ha Hl. apply Z.eqb_eq in Ha. apply Z.eqb_eq in Hl.
  unfold course. now rewrite Hp, Ha, Hl.
Qed.

(** The four kinds of environment. *)
Lemma env_cases :
  (exists st, prepare_outcome env = PrepareDies st) \/
  (prepare_outcome env = Prepared /\ addService_status env <> 0) \/
  (prepare_outcome env = Prepared /\ addService_status env = 0 /\
   startListener_status env <> 0) \/
  (prepare_outcome env = Prepared /\ addService_status env = 0 /\
   startListener_status env = 0).
Proof.
  destruct (prepare_outcome env) as [|st]; [|left; now exists st].
  right.
  destruct (Z.eq_dec (addService_status env) 0) as [Ha|Ha]; [|now left].
  right.
  destruct (Z.eq_dec (startListener_status env) 0); [right | left]; easy.
Qed.

Lemma trace_in_course (m : nat) :
  exists k, initial_segment (trace (run argc argv env m)) (course env k).
Proof.
  destruct env_cases as [[st Hp]|[[Hp Ha]|[(Hp & Ha & Hl)|(Hp & Ha & Hl)]]].
  - exists 0%nat. rewrite (course_died st 0 Hp).
    pose proof (run_died env argc argv st Hp) as H1.
    replace [Looper_prepare 0] with (trace (run argc argv env 1))
      by now rewrite H1.
    apply halting_trace_segment with (Died st). now rewrite H1.
  - exists 0%nat. rewrite (course_refused 0 Hp Ha).
    pose proof (run_refused env argc argv Hp Ha) as H1.
    replace refused_calls with (trace (run argc argv env 10))
      by now rewrite H1.
    apply halting_trace_segment with (Returned (-1)). now rewrite H1.
  - exists 0%nat. rewrite (course_bind_failure 0 Hp Ha Hl).
    pose proof (run_bind_failure env argc argv Hp Ha Hl) as H1.
    replace serving_calls with (trace (run argc argv env 14))
      by now rewrite H1.
    apply halting_trace_segment with (Exited 1). now rewrite H1.
  - pose proof (run_pump env argc argv Hp Ha Hl) as H1.
    destruct (Nat.le_gt_cases 14 m) as [Hle|Hgt].
    + assert (Hin : in_pump (pc (run argc argv env 14)) = true)
        by now rewrite H1.
      destruct (pump_stays env (m - 14) _ Hin) as [_ [j E]].
      rewrite <- run_le in E by exact Hle.
      exists j. rewrite (course_pump j Hp Ha Hl), E, H1.
      apply initial_segment_refl.
    + exists 0%nat. rewrite (course_pump 0 Hp Ha Hl), app_nil_r.
      replace serving_calls with (trace (run argc argv env 14))
        by now rewrite H1.
      apply (trace_grows env argc argv m 14). lia.
Qed.

End Courses.

(** X1.  At every step of every run, the calls made so far are an initial
    segment of the course the answers select: the calls of lines 50-73 in
    program order along the taken branches, followed in the loop by calls of
    [pollAll] with timeout -1 only. *)
Theorem trace_follows_course (argc : Z) (argv : list string)
    (env : Collaborators) (m : nat) :
  exists k r, course env k = trace (run argc argv env m) ++ r.
Proof.
  destruct (trace_in_course env argc argv m) as [k [r E]]. now exists k, r.
Qed.

(** ** What the way a run ends tells *)

(** X2.  The way a run has ended tells which answer ended it.  A return from
    [main] is [return -1], after a refused registration, with exactly the
    calls up to the error record made.  A call of [exit] is [exit(1)], after
    an accepted registration and a failed listener start, with exactly the
    calls up to the listener start made. *)
Theorem halt_tells_cause (argc : Z) (argv : list string)
    (env : Collaborators) (m : nat) (h : Halt) :
  halted (run argc argv env m) = Some h ->
  match h with
  | Returned ret =>
      ret = -1 /\
      prepare_outcome env = Prepared /\
      addService_status env <> 0 /\
      trace (run argc argv env m) = refused_calls
  | Exited code =>
      code = 1 /\
      prepare_outcome env = Prepared /\
      addService_status env = 0 /\
      startListener_status env <> 0 /\
      trace (run argc argv env m) = serving_calls
  | Died st =>
      prepare_outcome env = PrepareDies st /\
      trace (run argc argv env m) = [Looper_prepare 0]
  end.
Proof.
  unfold halted. intros H.
  destruct (pc (run argc argv env m)) eqn:Hm; try discriminate.
  injection H as ->.
  destruct (env_cases env) as
    [[st Hp]|[[Hp Ha]|[(Hp & Ha & Hl)|(Hp & Ha & Hl)]]].
  - pose proof (run_died env argc argv st Hp) as H1.
    assert (H1pc : pc (run argc argv env 1) = Halted (Died st))
      by now rewrite H1.
    pose proof (halted_agree env argc argv 1 m _ _ H1pc Hm) as E.
    rewrite E, H1 in Hm. injection Hm as <-.
    rewrite E, H1. now split.
  - pose proof (run_refused env argc argv Hp Ha) as H1.
    assert (H1pc : pc (run argc argv env 10) = Halted (Returned (-1)))
      by now rewrite H1.
    pose proof (halted_agree env argc argv 10 m _ _ H1pc Hm) as E.
    rewrite E, H1 in Hm. injection Hm as <-.
    rewrite E, H1. now repeat split.
  - pose proof (run_bind_failure env argc argv Hp Ha Hl) as H1.
    assert (H1pc : pc (run argc argv env 14) = Halted (Exited 1))
      by now rewrite H1.
    pose proof (halted_agree env argc argv 14 m _ _ H1pc Hm) as E.
    rewrite E, H1 in Hm. injection Hm as <-.
    rewrite E, H1. now repeat split.
  - pose proof (halting_run_not_in_pump env argc argv m 14 h Hm) as E.
    rewrite (run_pump env argc argv Hp Ha Hl) in E. discriminate.
Qed.

(** X3.  The bootstrap is over within fourteen steps: from then on the
    process has ended or is in the loop of lines 79-81. *)
Theorem bootstrap_bounded (argc : Z) (argv : list string)
    (env : Collaborators) (m : nat) :
  (14 <= m)%nat ->
  in_pump (pc (run argc argv env m)) = true \/
  exists h, halted (run argc argv env m) = Some h.
Proof.
  intros Hm.
  destruct (env_cases env) as
    [[st Hp]|[[Hp Ha]|[(Hp & Ha & Hl)|(Hp & Ha & Hl)]]].
  - right. exists (Died st).
    pose proof (run_died env argc argv st Hp) as H1.
    rewrite (run_halted env argc argv 1 m (Died st)), H1;
      [reflexivity | now rewrite H1 | lia].
  - right. exists (Returned (-1)).
    pose proof (run_refused env argc argv Hp Ha) as H1.
    rewrite (run_halted env argc argv 10 m (Returned (-1))), H1;
      [reflexivity | now rewrite H1 | lia].
  - right. exists (Exited 1).
    pose proof (run_bind_failure env argc argv Hp Ha Hl) as H1.
    rewrite (run_halted env argc argv 14 m (Exited 1)), H1;
      [reflexivity | now rewrite H1 | lia].
  - left. rewrite (run_le env argc argv 14 m Hm).
    apply pump_stays. now rewrite (run_pump env argc argv Hp Ha Hl).
Qed.

(** ** Log records *)

(** X4.  The only log records a run ever writes are the error record
    "Failed to add service", and only after a refused registration, and the
    info record "using statsd socket", and only after an accepted one.  No
    run writes a warning. *)
Theorem log_records (argc : Z) (argv : list string)
    (env : Collaborators) (m : nat) (prio : LogPriority) (msg : string) :
  In (ALOG prio msg) (trace (run argc argv env m)) ->
  (prio = LOG_ERROR /\ msg = "Failed to add service" /\
   addService_status env <> 0) \/
  (prio = LOG_INFO /\ msg = "using statsd socket" /\
   addService_status env = 0).
Proof.
  intros H.
  destruct (trace_in_course env argc argv m) as [k Hseg].
  apply (In_initial_segment _ _ _ Hseg) in H.
  destruct (env_cases env) as
    [[st Hp]|[[Hp Ha]|[(Hp & Ha & Hl)|(Hp & Ha & Hl)]]].
  - rewrite (course_died env st k Hp) in H. absurd_call.
  - rewrite (course_refused env k Hp Ha) in H. left.
    cbn in H.
    repeat (destruct H as [H|H]; try discriminate; try contradiction).
    injection H as <- <-. now repeat split.
  - rewrite (course_bind_failure env k Hp Ha Hl) in H. right.
    cbn in H.
    repeat (destruct H as [H|H]; try discriminate; try contradiction).
    injection H as <- <-. now repeat split.
  - rewrite (course_pump env k Hp Ha Hl) in H. right.
    apply in_app_or in H. destruct H as [H|H].
    + cbn in H.
      repeat (destruct H as [H|H]; try discriminate; try contradiction).
      injection H as <- <-. now repeat split.
    + apply repeat_spec in H. discriminate.
Qed.

(** ** The loop *)

Lemma inpoll_stays (env : Collaborators) (n : nat) (s : State) :
  pc s = InPoll -> run_from env n s = s.
Proof.
  intros H; induction n as [|n IH]; simpl; [reflexivity|].
  replace (step env s) with s; [exact IH|].
  unfold step. now rewrite H.
Qed.

(** The state before the [k+1]-th call of [pollAll], when the first [k]
    calls have returned. *)
Lemma run_polls (argc : Z) (argv : list string) (env : Collaborators)
    (k : nat) :
  prepare_outcome env = Prepared ->
  addService_status env = 0 ->
  startListener_status env = 0 ->
  (forall j, (j < k)%nat -> returns (pollAll_result env j) = true) ->
  run argc argv env (14 + 2 * k) =
  mkState L80 (serving_calls ++ repeat (pollAll (-1)) k) k.
Proof.
  intros Hp Ha Hl. induction k as [|k IH]; intros Hret.
  - cbn [Nat.mul Nat.add repeat]. rewrite app_nil_r.
    exact (run_pump env argc argv Hp Ha Hl).
  - replace (14 + 2 * S k)%nat with ((14 + 2 * k) + 2)%nat by lia.
    rewrite run_add, IH by (intros j Hj; apply Hret; lia).
    cbn [run_from]. unfold step at 2. cbn [pc polls trace].
    specialize (Hret k (Nat.lt_succ_diag_r k)).
    destruct (pollAll_result env k); [|discriminate].
    unfold step, jump. cbn [pc polls trace].
    now rewrite <- app_assoc, <- repeat_cons.
Qed.

(** X5.  In the loop, each time [pollAll] returns it is called again, whatever
    it returned: if the first [k] calls return, the process stands at line 80
    again with exactly [k] calls of [pollAll(-1)] made after the bootstrap,
    and its next step makes the next call. *)
Theorem pump_polls_again (argc : Z) (argv : list string)
    (env : Collaborators) (k : nat) :
  prepare_outcome env = Prepared ->
  addService_status env = 0 ->
  startListener_status env = 0 ->
  (forall j, (j < k)%nat -> returns (pollAll_result env j) = true) ->
  exists n,
    pc (run argc argv env n) = L80 /\
    trace (run argc argv env n) = serving_calls ++ repeat (pollAll (-1)) k /\
    trace (run argc argv env (S n)) =
    serving_calls ++ repeat (pollAll (-1)) (S k).
Proof.
  intros Hp Ha Hl Hret. exists (14 + 2 * k)%nat.
  rewrite run_S, (run_polls argc argv env k Hp Ha Hl Hret).
  repeat split.
  unfold step. cbn [pc polls trace].
  destruct (pollAll_result env k); cbn [trace];
    now rewrite <- app_assoc, <- repeat_cons.
Qed.

(** X6.  If the first [k] calls of [pollAll] return and the next one never
    does, the process stays inside that call for good: it never halts and the
    trace stays at the bootstrap calls followed by [k+1] calls of
    [pollAll(-1)]. *)
Theorem pump_blocks_in_poll (argc : Z) (argv : list string)
    (env : Collaborators) (k : nat) :
  prepare_outcome env = Prepared ->
  addService_status env = 0 ->
  startListener_status env = 0 ->
  (forall j, (j < k)%nat -> returns (pollAll_result env j) = true) ->
  pollAll_result env k = None ->
  exists n, forall m, (n <= m)%nat ->
    run argc argv env m =
    mkState InPoll (serving_calls ++ repeat (pollAll (-1)) (S k)) (S k).
Proof.
  intros Hp Ha Hl Hret Hk. exists (S (14 + 2 * k)). intros m Hm.
  rewrite (run_le env argc argv (S (14 + 2 * k)) m Hm).
  rewrite run_S, (run_polls argc argv env k Hp Ha Hl Hret).
  unfold step at 1. cbn [pc polls trace]. rewrite Hk.
  rewrite inpoll_stays by reflexivity.
  now rewrite <- app_assoc, <- repeat_cons.
Qed.

(** ** What main tests *)

Lemma step_same_tests (e1 e2 : Collaborators) (s : State) :
  prepare_outcome e1 = Prepared -> prepare_outcome e2 = Prepared ->
  same_tests e1 e2 -> step e1 s = step e2 s.
Proof.
  intros Hp1 Hp2 (Ha & Hl & Hk). unfold step.
  rewrite Hp1, Hp2, Ha, Hl. specialize (Hk (polls s)).
  destruct (pc s); try reflexivity.
  now destruct (pollAll_result e1 (polls s)), (pollAll_result e2 (polls s)).
Qed.

(** X7.  [main] uses the collaborators' answers only through its tests.  Take
    two runs in both of which [Looper::prepare] returns.  They are in the
    same state after any number of steps as soon as the two registration
    statuses are both zero or both non-zero, likewise the two listener
    results, and each call of [pollAll] returns in both or in neither.  The
    values themselves, and what [pollAll] returns, play no part. *)
Theorem only_tests_matter (argc : Z) (argv : list string)
    (env1 env2 : Collaborators) (n : nat) :
  prepare_outcome env1 = Prepared ->
  prepare_outcome env2 = Prepared ->
  (addService_status env1 =? 0) = (addService_status env2 =? 0) ->
  (startListener_status env1 =? 0) = (startListener_status env2 =? 0) ->
  (forall k,
     returns (pollAll_result env1 k) = returns (pollAll_result env2 k)) ->
  run argc argv env1 n = run argc argv env2 n.
Proof.
  intros Hp1 Hp2 Ha Hl Hk.
  assert (H : same_tests env1 env2) by (repeat split; assumption).
  unfold run. generalize (main argc argv).
  induction n as [|n IH]; intros s; simpl; [reflexivity|].
  now rewrite (step_same_tests env1 env2 s Hp1 Hp2 H), IH.
Qed.

(** ** Each bootstrap call at most once *)

Lemma bootstrap_calls_polls (k : nat) :
  bootstrap_calls (repeat (pollAll (-1)) k) = [].
Proof. induction k as [|k IH]; [reflexivity | exact IH]. Qed.

Lemma In_bootstrap_calls (c : Call) (l : list Call) :
  is_poll c = false -> In c l -> In c (bootstrap_calls l).
Proof.
  intros Hc Hin. apply filter_In. split; [exact Hin | now rewrite Hc].
Qed.

Lemma NoDup_serving_calls : NoDup serving_calls.
Proof.
  cbv [serving_calls setup_calls app].
  repeat (constructor; [cbn; intuition discriminate|]). constructor.
Qed.

Lemma NoDup_bootstrap_course (env : Collaborators) (k : nat) :
  NoDup (bootstrap_calls (course env k)).
Proof.
  destruct (env_cases env) as
    [[st Hp]|[[Hp Ha]|[(Hp & Ha & Hl)|(Hp & Ha & Hl)]]].
  - rewrite (course_died env st k Hp). cbn.
    repeat (constructor; [cbn; intuition discriminate|]). constructor.
  - rewrite (course_refused env k Hp Ha). cbn.
    repeat (constructor; [cbn; intuition discriminate|]). constructor.
  - rewrite (course_bind_failure env k Hp Ha Hl).
    exact NoDup_serving_calls.
  - rewrite (course_pump env k Hp Ha Hl).
    unfold bootstrap_calls. rewrite filter_app.
    fold (bootstrap_calls (repeat (pollAll (-1)) k)).
    rewrite bootstrap_calls_polls, app_nil_r.
    exact NoDup_serving_calls.
Qed.

(** X8.  No call of the bootstrap is made twice: in every trace, a call other
    than [pollAll] occurs neither before nor after itself.  In particular the
    service is registered at most once and the listener started at most
    once. *)
Theorem bootstrap_calls_once (argc : Z) (argv : list string)
    (env : Collaborators) (m : nat) (c : Call) (l1 l2 : list Call) :
  is_poll c = false ->
  trace (run argc argv env m) = l1 ++ c :: l2 ->
  ~ In c l1 /\ ~ In c l2.
Proof.
  intros Hc E.
  destruct (trace_in_course env argc argv m) as [k [r Hr]].
  pose proof (NoDup_bootstrap_course env k) as Hnd.
  rewrite Hr, E, <- app_assoc, <- app_comm_cons in Hnd.
  unfold bootstrap_calls in Hnd. rewrite filter_app in Hnd.
  cbn [filter] in Hnd. rewrite Hc in Hnd. cbn [negb] in Hnd.
  apply NoDup_remove_2 in Hnd.
  split; intros Hin; apply Hnd, in_or_app; [left | right].
  - now apply In_bootstrap_calls.
  - apply In_bootstrap_calls; [exact Hc|]. apply in_or_app. now left.
Qed.

(** ** Construction before use *)

Lemma segment_keeps_order (a b : Call) (p q : list Call) :
  ~ In b p -> In a p ->
  forall t l, initial_segment t l -> l = p ++ b :: q -> In b t ->
  precedes a b t.
Proof.
  intros Hb Ha t l [r ->] E Hin.
  assert (Ht : exists t', t = p ++ b :: t').
  { clear Ha. revert t E Hin. induction p as [|x p IH]; intros t E Hin.
    - destruct t as [|y t]; [contradiction|].
      injection E as -> _. now exists t.
    - destruct t as [|y t]; [contradiction|].
      injection E as -> E.
      destruct Hin as [->|Hin]; [exfalso; apply Hb; now left|].
      destruct (IH (fun H => Hb (or_intror H)) t E Hin) as [t' ->].
      now exists t'. }
  destruct Ht as [t' ->].
  apply in_split in Ha. destruct Ha as [l1 [l2 ->]].
  exists l1, l2, t'. now rewrite <- app_assoc.
Qed.

(** [b] is at position [i] of the written-out course: [a] is before it. *)
Ltac order_at i :=
  match goal with
  | Hseg : initial_segment ?t ?c, Hin : In ?b ?t |- precedes ?a ?b ?t =>
      apply (fun H1 H2 =>
               segment_keeps_order a b (firstn i c) (skipn (S i) c)
                 H1 H2 t c Hseg eq_refl Hin);
      [ cbn; intuition discriminate | cbn; tauto ]
  end.

Ltac not_on_course :=
  match goal with
  | Hseg : initial_segment ?t _, Hin : In _ ?t |- _ =>
      apply (In_initial_segment _ _ _ Hseg) in Hin; absurd_call
  end.

(** X9.  Every object is set up before it is used: in every trace the looper
    is prepared before the service is constructed, the service is constructed
    before it is registered, the startup hook has run before the socket
    listener is constructed, the listener is constructed before it is
    started, and the listener is started before the first [pollAll]. *)
Theorem construct_before_use (argc : Z) (argv : list string)
    (env : Collaborators) (m : nat) :
  let t := trace (run argc argv env m) in
  (In new_StatsService t ->
   precedes (Looper_prepare 0) new_StatsService t) /\
  (In (addService "stats") t ->
   precedes new_StatsService (addService "stats") t) /\
  (In new_StatsSocketListener t ->
   precedes Startup new_StatsSocketListener t) /\
  (In (startListener 600) t ->
   precedes new_StatsSocketListener (startListener 600) t) /\
  (In (pollAll (-1)) t ->
   precedes (startListener 600) (pollAll (-1)) t).
Proof.
  cbv zeta.
  destruct (trace_in_course env argc argv m) as [k Hseg].
  destruct (env_cases env) as
    [[st Hp]|[[Hp Ha]|[(Hp & Ha & Hl)|(Hp & Ha & Hl)]]].
  - rewrite (course_died env st k Hp) in Hseg.
    repeat split; intros Hin; not_on_course.
  - rewrite (course_refused env k Hp Ha) in Hseg.
    cbv [refused_calls setup_calls app] in Hseg.
    repeat split; intros Hin;
      first [ order_at 6%nat | order_at 7%nat | not_on_course ].
  - rewrite (course_bind_failure env k Hp Ha Hl) in Hseg.
    cbv [serving_calls setup_calls app] in Hseg.
    repeat split; intros Hin;
      first [ order_at 6%nat | order_at 7%nat | order_at 10%nat
            | order_at 12%nat | not_on_course ].
  - rewrite (course_pump env k Hp Ha Hl) in Hseg.
    destruct k as [|k]; cbv [serving_calls setup_calls app repeat] in Hseg;
      repeat split; intros Hin;
      first [ order_at 6%nat | order_at 7%nat | order_at 10%nat
            | order_at 12%nat | order_at 13%nat | not_on_course ].
Qed.

(** * The further properties at sample runs *)

Lemma halt_tells_cause_witness :
  halted (run 1 ["statsd"] env_bind_failure 14) = Some (Exited 1) /\
  prepare_outcome env_bind_failure = Prepared /\
  addService_status env_bind_failure = 0 /\
  startListener_status env_bind_failure <> 0 /\
  trace (run 1 ["statsd"] env_bind_failure 14) = serving_calls.
Proof.
  split; [reflexivity|].
  apply (halt_tells_cause 1 ["statsd"] env_bind_failure 14 (Exited 1)).
  reflexivity.
Defined.

Lemma bootstrap_bounded_witness :
  (14 <= 20)%nat /\
  (in_pump (pc (run 1 ["statsd"] env_quiet 20)) = true \/
   exists h, halted (run 1 ["statsd"] env_quiet 20) = Some h).
Proof.
  split; [lia|].
  apply (bootstrap_bounded 1 ["statsd"] env_quiet 20). lia.
Defined.

Lemma log_records_witness :
  In (ALOG LOG_ERROR "Failed to add service")
     (trace (run 1 ["statsd"] env_refused 10)) /\
  ((LOG_ERROR = LOG_ERROR /\
    "Failed to add service" = "Failed to add service" /\
    addService_status env_refused <> 0) \/
   (LOG_ERROR = LOG_INFO /\
    "Failed to add service" = "using statsd socket" /\
    addService_status env_refused = 0)).
Proof.
  assert (H : In (ALOG LOG_ERROR "Failed to add service")
                 (trace (run 1 ["statsd"] env_refused 10)))
    by (cbn; tauto).
  split; [exact H|].
  exact (log_records 1 ["statsd"] env_refused 10 _ _ H).
Defined.

Lemma env_stuck_returns (j : nat) :
  (j < 3)%nat -> returns (pollAll_result env_stuck j) = true.
Proof.
  intros Hj. destruct j as [|[|[|j]]]; try reflexivity. lia.
Defined.

Lemma pump_polls_again_witness :
  exists n,
    pc (run 1 ["statsd"] env_stuck n) = L80 /\
    trace (run 1 ["statsd"] env_stuck n) =
    serving_calls ++ repeat (pollAll (-1)) 3 /\
    trace (run 1 ["statsd"] env_stuck (S n)) =
    serving_calls ++ repeat (pollAll (-1)) 4.
Proof.
  apply (pump_polls_again 1 ["statsd"] env_stuck 3);
    [reflexivity | reflexivity | reflexivity | exact env_stuck_returns].
Defined.

Lemma pump_blocks_in_poll_witness :
  pollAll_result env_stuck 3 = None /\
  exists n, forall m, (n <= m)%nat ->
    run 1 ["statsd"] env_stuck m =
    mkState InPoll (serving_calls ++ repeat (pollAll (-1)) 4) 4.
Proof.
  split; [reflexivity|].
  apply (pump_blocks_in_poll 1 ["statsd"] env_stuck 3);
    [reflexivity | reflexivity | reflexivity | exact env_stuck_returns
    | reflexivity].
Defined.

Lemma only_tests_matter_witness :
  prepare_outcome env_bind_failure = Prepared /\
  prepare_outcome env_bind_failure' = Prepared /\
  same_tests env_bind_failure env_bind_failure' /\
  startListener_status env_bind_failure <>
  startListener_status env_bind_failure' /\
  pollAll_result env_bind_failure 0 <> pollAll_result env_bind_failure' 0 /\
  run 1 ["statsd"] env_bind_failure 20 =
  run 1 ["statsd"] env_bind_failure' 20.
Proof.
  do 2 (split; [reflexivity|]).
  split; [repeat split; intros k; reflexivity|].
  do 2 (split; [discriminate|]).
  apply (only_tests_matter 1 ["statsd"]
           env_bind_failure env_bind_failure' 20);
    reflexivity.
Defined.

Lemma bootstrap_calls_once_witness :
  let l2 := [ sayHiToStatsCompanion; Startup; new_StatsSocketListener;
              ALOG LOG_INFO "using statsd socket"; startListener 600;
              pollAll (-1); pollAll (-1); pollAll (-1) ] in
  trace (run 1 ["statsd"] env_happy 20) =
  setup_calls ++ addService "stats" :: l2 /\
  ~ In (addService "stats") setup_calls /\
  ~ In (addService "stats") l2.
Proof.
  cbv zeta. split; [reflexivity|].
  apply (bootstrap_calls_once 1 ["statsd"] env_happy 20);
    reflexivity.
Defined.

Lemma construct_before_use_witness :
  let t := trace (run 1 ["statsd"] env_happy 20) in
  In (pollAll (-1)) t /\
  precedes (startListener 600) (pollAll (-1)) t.
Proof.
  cbv zeta.
  assert (H : In (pollAll (-1)) (trace (run 1 ["statsd"] env_happy 20)))
    by (cbn; tauto).
  split; [exact H|].
  now apply (construct_before_use 1 ["statsd"] env_happy 20).
Defined.
